(** * Model of package bigq (service.go)

    Shallow embedding of [New], [Service.Query], [Service.requestQuery],
    [Service.waitForJob] and [queryArgs].  Calls to the BigQuery client are
    recorded in a trace of events; the client's answers come from a
    [Backend] record whose status answers are indexed by the number of
    status requests already issued, so that a backend whose job state
    changes over time is covered.  The unbounded [for] loop of
    [waitForJob] runs on fuel: a computation that runs out of fuel has not
    terminated (yet), and its trace so far is kept. *)

From Stdlib Require Import String List ZArith Lia.
Import ListNotations.
Open Scope string_scope.
Open Scope list_scope.

(** ** Go values *)

(** Go [error] values met in this file: [errors.New] / [fmt.Errorf]
    results carry a message; errors produced by the API client or its
    transport are kept opaque with a code and a message. *)
Inductive error : Type :=
| ErrString (msg : string)
| ErrAPI (code : Z) (msg : string).

Inductive result (A : Type) : Type :=
| Ok (a : A)
| Err (e : error).
Arguments Ok {A} a.
Arguments Err {A} e.

(** [uint64] values are Z in [0, 2^64); [int64(x)] wraps. *)
Definition uint64_range (x : Z) : Prop := (0 <= x < 2 ^ 64)%Z.

Definition toInt64 (x : Z) : Z :=
  if (x <? 2 ^ 63)%Z then x else (x - 2 ^ 64)%Z.

(** Decimal rendering of an [int], as [%d] prints it. *)
Fixpoint string_of_uint (d : Decimal.uint) : string :=
  match d with
  | Decimal.Nil => ""
  | Decimal.D0 d => String.append "0" (string_of_uint d)
  | Decimal.D1 d => String.append "1" (string_of_uint d)
  | Decimal.D2 d => String.append "2" (string_of_uint d)
  | Decimal.D3 d => String.append "3" (string_of_uint d)
  | Decimal.D4 d => String.append "4" (string_of_uint d)
  | Decimal.D5 d => String.append "5" (string_of_uint d)
  | Decimal.D6 d => String.append "6" (string_of_uint d)
  | Decimal.D7 d => String.append "7" (string_of_uint d)
  | Decimal.D8 d => String.append "8" (string_of_uint d)
  | Decimal.D9 d => String.append "9" (string_of_uint d)
  end.

Definition string_of_nat (n : nat) : string := string_of_uint (Nat.to_uint n).

(** ** bigquery/v2 client types (the fields service.go touches) *)

Record DatasetReference := mkDatasetReference {
  DatasetId : string;
  DatasetProjectId : string
}.

(** [MaxResults] is an [int64] tagged [omitempty]: the zero value means
    that no result-limit hint is sent. *)
Record QueryRequest := mkQueryRequest {
  DefaultDataset : DatasetReference;
  ReqQuery : string;
  MaxResults : Z
}.

Definition has_limit_hint (req : QueryRequest) : bool :=
  negb (MaxResults req =? 0)%Z.

Record JobReference := mkJobReference { JobId : string }.

(** A table row is kept as the list of its cell values. *)
Definition TableRow := list string.

Record QueryResponse := mkQueryResponse {
  JobComplete : bool;
  RespJobReference : JobReference;
  Rows : list TableRow;
  PageToken : string
}.

Record ErrorProto := mkErrorProto { Message : string }.

Record JobStatus := mkJobStatus {
  State : string;
  ErrorResult : option ErrorProto
}.

Record Job := mkJob { Status : JobStatus }.

(** Calls issued to the client, in order. *)
Inductive event : Type :=
| EvClientInit                                    (* clientOptions.Service() *)
| EvQuery (projectId : string) (req : QueryRequest) (* Jobs.Query(..).Do() *)
| EvGet (projectId jobId : string)                 (* Jobs.Get(..).Do() *)
| EvSleep (ms : Z).                                (* <-time.After(..) *)

Definition is_get (ev : event) : bool :=
  match ev with EvGet _ _ => true | _ => false end.

Definition count_gets (tr : list event) : nat := length (filter is_get tr).

(** The [*bigquery.Service] seen through the calls service.go makes.
    [bk_get n p j] is the answer to the status request issued when [n]
    status requests have already been issued. *)
Record Backend := mkBackend {
  bk_query : string -> QueryRequest -> result QueryResponse;
  bk_get : nat -> string -> string -> result Job
}.

(** [ClientOptions.Service()] (defined outside service.go): its outcome. *)
Record ClientOptions := mkClientOptions { co_Service : result Backend }.

Record Config := mkConfig { ConfigDatasetID : string; ConfigProjectID : string }.

Record Service := mkService { config : Config; service : Backend }.

(** ** A trace monad with errors and divergence

    [None] as outcome: the computation has not terminated. *)
Definition M (A : Type) : Type := list event -> option (result A) * list event.

Definition ret {A} (a : A) : M A := fun tr => (Some (Ok a), tr).
Definition throw {A} (e : error) : M A := fun tr => (Some (Err e), tr).
Definition bind {A B} (m : M A) (k : A -> M B) : M B :=
  fun tr =>
    match m tr with
    | (Some (Ok a), tr') => k a tr'
    | (Some (Err e), tr') => (Some (Err e), tr')
    | (None, tr') => (None, tr')
    end.
Definition diverge {A} : M A := fun tr => (None, tr).

(** Issue a call: record it, then receive the answer. *)
Definition call {A} (ev : event) (answer : list event -> result A) : M A :=
  fun tr => (Some (answer tr), tr ++ [ev]).

Notation "x <- m ;; k" := (bind m (fun x => k))
  (at level 61, m at next level, right associativity).

(** ** service.go *)

Definition errInvalidConfig : error :=
  ErrString "dataset and project can not be empty".

Definition New (clientOptions : ClientOptions) (cfg : Config) : M Service :=
  bqService <- call EvClientInit (fun _ => co_Service clientOptions) ;;
  if orb (String.eqb (ConfigDatasetID cfg) "") (String.eqb (ConfigProjectID cfg) "")
  then throw errInvalidConfig
  else ret (mkService cfg bqService).

Definition queryArgs (args : list Z) : result (Z * Z) :=
  match args with
  | [] => Ok (0%Z, 0%Z)
  | [a0; a1] => Ok (a0, a1)     (* maxResults = args[1]; fallthrough *)
  | [a0] => Ok (a0, 0%Z)
  | _ => Err (ErrString (String.append "too many arguments given to query: "
                                       (string_of_nat (length args))))
  end.

(** The request literal of [requestQuery]. *)
Definition queryRequest (cfg : Config) (query : string) (maxResults : Z)
  : QueryRequest :=
  mkQueryRequest (mkDatasetReference (ConfigDatasetID cfg) (ConfigProjectID cfg))
                 query
                 (if (maxResults >? 0)%Z then toInt64 maxResults else 0%Z).

Definition requestQuery (s : Service) (query : string) (maxResults : Z)
  : M QueryResponse :=
  let req := queryRequest (config s) query maxResults in
  call (EvQuery (ConfigProjectID (config s)) req)
       (fun _ => bk_query (service s) (ConfigProjectID (config s)) req).

Fixpoint waitForJob (fuel : nat) (s : Service) (jobID : string) : M unit :=
  match fuel with
  | O => diverge
  | S fuel' =>
      let p := ConfigProjectID (config s) in
      job <- call (EvGet p jobID) (fun tr => bk_get (service s) (count_gets tr) p jobID) ;;
      if String.eqb (State (Status job)) "DONE" then
        match ErrorResult (Status job) with
        | Some er => throw (ErrString (Message er))
        | None => ret tt
        end
      else
        _ <- call (EvSleep 300) (fun _ => Ok tt) ;;
        waitForJob fuel' s jobID
  end.

(** Modelled from the spec: [newQuery] and the [Query] cursor (query.go,
    not among the sources).  The cursor is seeded with the backend client,
    the first response, projectID, offset and page size; only these seeds
    are modelled. *)
Record Cursor := newQuery {
  q_service : Backend;
  q_resp : QueryResponse;
  q_projectID : string;
  q_start : Z;
  q_maxResults : Z
}.

Definition Query (fuel : nat) (s : Service) (query : string) (args : list Z)
  : M Cursor :=
  match queryArgs args with
  | Err e => throw e
  | Ok (start, maxResults) =>
      resp <- requestQuery s query maxResults ;;
      _ <- (if negb (JobComplete resp)
            then waitForJob fuel s (JobId (RespJobReference resp))
            else ret tt) ;;
      ret (newQuery (service s) resp (ConfigProjectID (config s)) start maxResults)
  end.

(** ** Sample values *)

Definition cfg_demo : Config := mkConfig "ds" "proj".

Definition resp_demo (complete : bool) : QueryResponse :=
  mkQueryResponse complete (mkJobReference "job1") [["1"]] "".

Definition job_running : Job := mkJob (mkJobStatus "RUNNING" None).
Definition job_done : Job := mkJob (mkJobStatus "DONE" None).

(** A backend whose job is still running for the first [k] status checks. *)
Definition backend_demo (complete : bool) (k : nat) : Backend :=
  mkBackend (fun _ _ => Ok (resp_demo complete))
            (fun n _ _ => if Nat.ltb n k then Ok job_running else Ok job_done).

Definition service_demo (complete : bool) (k : nat) : Service :=
  mkService cfg_demo (backend_demo complete k).

Example queryArgs_two : queryArgs [5%Z; 10%Z] = Ok (5%Z, 10%Z).
Proof. reflexivity. Qed.

Example queryArgs_three :
  queryArgs [1%Z; 2%Z; 3%Z] = Err (ErrString "too many arguments given to query: 3").
Proof. reflexivity. Qed.

Example Query_polls_twice :
  snd (Query 10 (service_demo false 2) "SELECT 1" [5%Z; 10%Z] [])
  = [EvQuery "proj" (queryRequest cfg_demo "SELECT 1" 10);
     EvGet "proj" "job1"; EvSleep 300; EvGet "proj" "job1"; EvSleep 300;
     EvGet "proj" "job1"].
Proof. reflexivity. Qed.

Example Query_out_of_fuel :
  fst (Query 2 (service_demo false 2) "SELECT 1" [] []) = None.
Proof. reflexivity. Qed.

(** ** Construction of a Service *)

Definition co_ok : ClientOptions := mkClientOptions (Ok (backend_demo true 0)).
Definition co_fail : ClientOptions := mkClientOptions (Err (ErrAPI 401 "unauthorized")).

(** C1 (as stated, refuted): with datasetID empty, [New] does not fail
    with ConfigError when the client factory fails, and the factory is
    consulted before the config is checked. *)
Lemma New_invalid_config_counterexample :
  ~ (fst (New co_fail (mkConfig "" "proj") []) = Some (Err errInvalidConfig)
     /\ ~ In EvClientInit (snd (New co_fail (mkConfig "" "proj") [])))
  /\ ~ (fst (New co_ok (mkConfig "" "proj") []) = Some (Err errInvalidConfig)
        /\ ~ In EvClientInit (snd (New co_ok (mkConfig "" "proj") []))).
Proof.
  split; cbn; intros [H1 H2]; apply H2; left; reflexivity.
Qed.

(** C1 (amended): for a config with empty projectID or datasetID, [New]
    first calls the client factory, which is its only call; if the factory
    fails its error is returned, otherwise [New] fails with ConfigError. *)
Theorem New_invalid_config (co : ClientOptions) (cfg : Config) (tr : list event)
  (Hinvalid : ConfigDatasetID cfg = "" \/ ConfigProjectID cfg = "") :
  New co cfg tr =
  (Some (match co_Service co with
         | Err e => Err e
         | Ok _ => Err errInvalidConfig
         end), tr ++ [EvClientInit]).
Proof.
  unfold New, bind, call, throw; cbn.
  destruct (co_Service co) as [b | e]; [| reflexivity].
  destruct Hinvalid as [H | H]; rewrite H.
  - reflexivity.
  - rewrite Bool.orb_true_r. reflexivity.
Qed.

Lemma New_invalid_config_witness :
  (ConfigDatasetID (mkConfig "" "proj") = "" \/ ConfigProjectID (mkConfig "" "proj") = "")
  /\ New co_ok (mkConfig "" "proj") [] = (Some (Err errInvalidConfig), [EvClientInit]).
Proof.
  split; [left; reflexivity |].
  exact (New_invalid_config co_ok (mkConfig "" "proj") [] (or_introl eq_refl)).
Defined.

(** ** Argument parsing *)

(** C2: with more than two variadic arguments, [Service.Query] fails with
    the "too many arguments" error and issues no call at all. *)
Theorem Query_too_many_args (fuel : nat) (s : Service) (query : string)
  (args : list Z) (tr : list event) (Hlen : 2 < length args) :
  Query fuel s query args tr =
  (Some (Err (ErrString (String.append "too many arguments given to query: "
                                       (string_of_nat (length args))))), tr)
  /\ String.prefix "too many arguments"
       (String.append "too many arguments given to query: "
                      (string_of_nat (length args))) = true.
Proof.
  split; [| reflexivity].
  destruct args as [| a0 [| a1 [| a2 rest]]]; cbn in Hlen; try lia.
  reflexivity.
Qed.

Lemma Query_too_many_args_witness :
  2 < length [1%Z; 2%Z; 3%Z]
  /\ Query 5 (service_demo false 0) "SELECT 1" [1%Z; 2%Z; 3%Z] []
     = (Some (Err (ErrString "too many arguments given to query: 3")), [])
  /\ String.prefix "too many arguments" "too many arguments given to query: 3" = true.
Proof.
  split; [cbn; lia |].
  exact (Query_too_many_args 5 (service_demo false 0) "SELECT 1" [1%Z; 2%Z; 3%Z] []
           (le_n 3)).
Defined.

(** C3: zero, one or two arguments are read positionally as
    (offset, pageSize), each defaulting to 0. *)
Theorem queryArgs_positional :
  queryArgs [] = Ok (0%Z, 0%Z)
  /\ (forall a, queryArgs [a] = Ok (a, 0%Z))
  /\ (forall a b, queryArgs [a; b] = Ok (a, b)).
Proof. repeat split. Qed.

(** ** The submitted request *)

Lemma waitForJob_extends (fuel : nat) (s : Service) (jobID : string)
  (tr : list event) :
  exists ext, snd (waitForJob fuel s jobID tr) = tr ++ ext.
Proof.
  revert tr; induction fuel as [| fuel IH]; intros tr; cbn.
  - exists []; rewrite app_nil_r; reflexivity.
  - unfold bind, call, throw, ret.
    destruct (bk_get _ _ _ _) as [job | e]; cbn.
    + destruct (String.eqb _ _).
      * destruct (ErrorResult _); eexists; reflexivity.
      * destruct (IH ((tr ++ [EvGet (ConfigProjectID (config s)) jobID]) ++ [EvSleep 300]))
          as [ext Hext].
        rewrite Hext, <- !app_assoc. eexists; reflexivity.
    + eexists; reflexivity.
Qed.

Lemma toInt64_small (x : Z) : (0 <= x < 2 ^ 63)%Z -> toInt64 x = x.
Proof.
  intros H; unfold toInt64.
  destruct (x <? 2 ^ 63)%Z eqn:E; [reflexivity |].
  apply Z.ltb_ge in E; lia.
Qed.

Lemma toInt64_nonzero (x : Z) : (0 < x < 2 ^ 64)%Z -> toInt64 x <> 0%Z.
Proof.
  intros H; unfold toInt64.
  destruct (x <? 2 ^ 63)%Z eqn:E; [lia |].
  apply Z.ltb_ge in E.
  assert (2 ^ 64 = 2 * 2 ^ 63)%Z by reflexivity. lia.
Qed.

(** Whatever the outcome, the first call of a [Query] whose arguments
    parse is the submission of [queryRequest]. *)
Lemma Query_submits (fuel : nat) (s : Service) (query : string)
  (args : list Z) (tr : list event) (start maxResults : Z) :
  queryArgs args = Ok (start, maxResults) ->
  exists rest, snd (Query fuel s query args tr)
    = tr ++ EvQuery (ConfigProjectID (config s)) (queryRequest (config s) query maxResults)
          :: rest.
Proof.
  intros Hargs; unfold Query; rewrite Hargs.
  unfold bind, requestQuery, call, ret.
  destruct (bk_query _ _ _) as [resp | e]; cbn.
  - destruct (JobComplete resp); cbn.
    + exists []; reflexivity.
    + destruct (waitForJob_extends fuel s (JobId (RespJobReference resp))
                  (tr ++ [EvQuery (ConfigProjectID (config s))
                                  (queryRequest (config s) query maxResults)]))
        as [ext Hext].
      destruct (waitForJob _ _ _ _) as [[[[] | e] |] tr'] eqn:Hw; cbn in *;
        subst tr'; rewrite <- app_assoc; eexists; reflexivity.
  - exists []; reflexivity.
Qed.

(** C4 (as stated, refuted): with pageSize = 2^63 the request carries a
    limit hint, but the hint is int64(2^63) = -2^63, not pageSize. *)
Lemma Query_limit_hint_counterexample :
  snd (Query 1 (service_demo true 0) "SELECT 1" [0%Z; (2 ^ 63)%Z] [])
  = [EvQuery "proj" (mkQueryRequest (mkDatasetReference "ds" "proj") "SELECT 1"
                                    (- 2 ^ 63)%Z)]
  /\ (- 2 ^ 63 <> 2 ^ 63)%Z.
Proof. split; [reflexivity | lia]. Qed.

(** C4 (amended): the submitted request is scoped to the configured
    project and dataset; it carries a limit hint iff pageSize > 0, the hint
    is int64(pageSize), which is pageSize itself when pageSize < 2^63. *)
Theorem Query_request_scoped (fuel : nat) (s : Service) (query : string)
  (args : list Z) (tr : list event) (start pageSize : Z)
  (Hargs : queryArgs args = Ok (start, pageSize))
  (Hrange : uint64_range pageSize) :
  exists req rest,
    snd (Query fuel s query args tr) = tr ++ EvQuery (ConfigProjectID (config s)) req :: rest
    /\ DefaultDataset req
       = mkDatasetReference (ConfigDatasetID (config s)) (ConfigProjectID (config s))
    /\ ReqQuery req = query
    /\ has_limit_hint req = (pageSize >? 0)%Z
    /\ MaxResults req = (if (pageSize >? 0)%Z then toInt64 pageSize else 0%Z)
    /\ ((0 < pageSize < 2 ^ 63)%Z -> MaxResults req = pageSize).
Proof.
  destruct (Query_submits fuel s query args tr start pageSize Hargs) as [rest Hrest].
  exists (queryRequest (config s) query pageSize), rest.
  unfold uint64_range in Hrange; cbn in Hrange.
  split; [exact Hrest |]. split; [reflexivity |]. split; [reflexivity |].
  split; [| split].
  - unfold has_limit_hint, queryRequest; cbn.
    destruct (pageSize >? 0)%Z eqn:Hp; cbn; [| reflexivity].
    apply Z.gtb_lt in Hp.
    rewrite (proj2 (Z.eqb_neq _ _)); [reflexivity |].
    apply toInt64_nonzero; lia.
  - reflexivity.
  - intros Hp; unfold queryRequest; cbn.
    replace (pageSize >? 0)%Z with true by (symmetry; apply Z.gtb_lt; lia).
    apply toInt64_small; lia.
Qed.

Lemma Query_request_scoped_witness :
  queryArgs [5%Z; 10%Z] = Ok (5%Z, 10%Z) /\ uint64_range 10 /\
  exists req rest,
    snd (Query 3 (service_demo false 1) "SELECT 1" [5%Z; 10%Z] [])
      = [] ++ EvQuery "proj" req :: rest
    /\ DefaultDataset req = mkDatasetReference "ds" "proj"
    /\ ReqQuery req = "SELECT 1"
    /\ has_limit_hint req = (10 >? 0)%Z
    /\ MaxResults req = (if (10 >? 0)%Z then toInt64 10 else 0%Z)
    /\ ((0 < 10 < 2 ^ 63)%Z -> MaxResults req = 10%Z).
Proof.
  split; [reflexivity |]. split; [unfold uint64_range; lia |].
  exact (Query_request_scoped 3 (service_demo false 1) "SELECT 1" [5%Z; 10%Z] []
           5 10 eq_refl ltac:(unfold uint64_range; lia)).
Defined.

(** ** The cursor returned by Query *)

(** C5: when the submission response reports [JobComplete = true], no
    status request is issued (whatever the fuel of the loop) and the
    cursor is built from that response. *)
Theorem Query_complete_no_polling (fuel : nat) (s : Service) (query : string)
  (args : list Z) (tr : list event) (start maxResults : Z) (resp : QueryResponse)
  (Hargs : queryArgs args = Ok (start, maxResults))
  (Hsubmit : bk_query (service s) (ConfigProjectID (config s))
               (queryRequest (config s) query maxResults) = Ok resp)
  (Hcomplete : JobComplete resp = true) :
  Query fuel s query args tr =
  (Some (Ok (newQuery (service s) resp (ConfigProjectID (config s)) start maxResults)),
   tr ++ [EvQuery (ConfigProjectID (config s)) (queryRequest (config s) query maxResults)]).
Proof.
  unfold Query; rewrite Hargs.
  unfold bind, requestQuery, call, ret; cbn.
  rewrite Hsubmit, Hcomplete; reflexivity.
Qed.

Lemma Query_complete_no_polling_witness :
  Query 0 (service_demo true 5) "SELECT 1" [] []
  = (Some (Ok (newQuery (backend_demo true 5) (resp_demo true) "proj" 0 0)),
     [EvQuery "proj" (queryRequest cfg_demo "SELECT 1" 0)]).
Proof.
  exact (Query_complete_no_polling 0 (service_demo true 5) "SELECT 1" [] [] 0 0
           (resp_demo true) eq_refl eq_refl eq_refl).
Defined.

Definition with_start (start : Z) (c : Cursor) : Cursor :=
  newQuery (q_service c) (q_resp c) (q_projectID c) start (q_maxResults c).

Definition result_map {A B} (f : A -> B) (r : result A) : result B :=
  match r with Ok a => Ok (f a) | Err e => Err e end.

(** C9: the offset never reaches the backend: two calls whose arguments
    agree on pageSize issue the same calls, with the request
    [queryRequest config query pageSize], and their outcomes differ only
    in the cursor's start, which is the offset. *)
Theorem Query_offset_not_sent (fuel : nat) (s : Service) (query : string)
  (args1 args2 : list Z) (tr : list event) (start1 start2 pageSize : Z)
  (H1 : queryArgs args1 = Ok (start1, pageSize))
  (H2 : queryArgs args2 = Ok (start2, pageSize)) :
  snd (Query fuel s query args1 tr) = snd (Query fuel s query args2 tr)
  /\ (exists rest, snd (Query fuel s query args1 tr)
        = tr ++ EvQuery (ConfigProjectID (config s)) (queryRequest (config s) query pageSize)
             :: rest)
  /\ fst (Query fuel s query args2 tr)
     = option_map (result_map (with_start start2)) (fst (Query fuel s query args1 tr))
  /\ (forall c, fst (Query fuel s query args1 tr) = Some (Ok c) -> q_start c = start1).
Proof.
  split; [| split; [exact (Query_submits fuel s query args1 tr start1 pageSize H1) |]].
  - unfold Query; rewrite H1, H2.
    unfold bind, requestQuery, call, ret.
    destruct (bk_query _ _ _) as [resp | e]; [| reflexivity].
    destruct (JobComplete resp); [reflexivity |]; cbn.
    destruct (waitForJob _ _ _ _) as [[[] |] tr']; reflexivity.
  - unfold Query; rewrite H1, H2.
    unfold bind, requestQuery, call, ret.
    destruct (bk_query _ _ _) as [resp | e];
      [| split; [reflexivity | intros c Hc; discriminate]].
    destruct (JobComplete resp); cbn;
      [split; [reflexivity | intros c Hc; injection Hc as <-; reflexivity] |].
    destruct (waitForJob _ _ _ _) as [[[] |] tr']; cbn;
      (split; [reflexivity |]); intros c Hc; try discriminate;
      injection Hc as <-; reflexivity.
Qed.

Lemma Query_offset_not_sent_witness :
  queryArgs [5%Z; 10%Z] = Ok (5%Z, 10%Z) /\ queryArgs [7%Z; 10%Z] = Ok (7%Z, 10%Z) /\
  snd (Query 4 (service_demo false 1) "SELECT 1" [5%Z; 10%Z] [])
  = snd (Query 4 (service_demo false 1) "SELECT 1" [7%Z; 10%Z] []).
Proof.
  split; [reflexivity |]. split; [reflexivity |].
  exact (proj1 (Query_offset_not_sent 4 (service_demo false 1) "SELECT 1"
                  [5%Z; 10%Z] [7%Z; 10%Z] [] 5 7 10 eq_refl eq_refl)).
Defined.

(** C10: when the submission reports [JobComplete = false] and the wait
    succeeds, the cursor is seeded with the submission response itself. *)
Theorem Query_incomplete_cursor_from_submission (fuel : nat) (s : Service)
  (query : string) (args : list Z) (tr : list event) (start maxResults : Z)
  (resp : QueryResponse) (c : Cursor)
  (Hargs : queryArgs args = Ok (start, maxResults))
  (Hsubmit : bk_query (service s) (ConfigProjectID (config s))
               (queryRequest (config s) query maxResults) = Ok resp)
  (Hincomplete : JobComplete resp = false)
  (Hok : fst (Query fuel s query args tr) = Some (Ok c)) :
  c = newQuery (service s) resp (ConfigProjectID (config s)) start maxResults
  /\ q_resp c = resp.
Proof.
  revert Hok; unfold Query; rewrite Hargs.
  unfold bind, requestQuery, call, ret; cbn.
  rewrite Hsubmit, Hincomplete; cbn.
  destruct (waitForJob _ _ _ _) as [[[] |] tr']; cbn; intros Hok;
    try discriminate.
  injection Hok as <-; split; reflexivity.
Qed.

Lemma Query_incomplete_cursor_from_submission_witness :
  let c := newQuery (backend_demo false 2) (resp_demo false) "proj" 5 10 in
  fst (Query 5 (service_demo false 2) "SELECT 1" [5%Z; 10%Z] []) = Some (Ok c)
  /\ c = newQuery (backend_demo false 2) (resp_demo false) "proj" 5 10
  /\ q_resp c = resp_demo false.
Proof.
  intros c; split; [reflexivity |].
  exact (Query_incomplete_cursor_from_submission 5 (service_demo false 2) "SELECT 1"
           [5%Z; 10%Z] [] 5 10 (resp_demo false) c eq_refl eq_refl eq_refl eq_refl).
Defined.

(** ** The polling loop *)

(** A status answer that ends the loop, and the loop's outcome then. *)
Definition stops (r : result Job) : bool :=
  match r with
  | Err _ => true
  | Ok job => String.eqb (State (Status job)) "DONE"
  end.

Definition wait_outcome (r : result Job) : result unit :=
  match r with
  | Err e => Err e
  | Ok job =>
      match ErrorResult (Status job) with
      | Some er => Err (ErrString (Message er))
      | None => Ok tt
      end
  end.

Lemma count_gets_app (l1 l2 : list event) :
  count_gets (l1 ++ l2) = count_gets l1 + count_gets l2.
Proof. unfold count_gets; rewrite filter_app, length_app; reflexivity. Qed.

Lemma waitForJob_step (fuel : nat) (s : Service) (jobID : string) (tr : list event) :
  let p := ConfigProjectID (config s) in
  let r := bk_get (service s) (count_gets tr) p jobID in
  waitForJob (S fuel) s jobID tr =
  if stops r then (Some (wait_outcome r), tr ++ [EvGet p jobID])
  else waitForJob fuel s jobID ((tr ++ [EvGet p jobID]) ++ [EvSleep 300]).
Proof.
  cbn. unfold bind, call, throw, ret.
  destruct (bk_get _ _ _ _) as [job | e]; cbn; [| reflexivity].
  destruct (String.eqb _ _); [| reflexivity].
  destruct (ErrorResult _); reflexivity.
Qed.

Lemma singleton_split {A} (pre post : list A) (a b : A) :
  pre ++ a :: post = [b] -> pre = [] /\ a = b /\ post = [].
Proof.
  destruct pre as [| x [| y pre]]; cbn; intros H; injection H as H1 H2;
    try discriminate; auto.
Qed.

(** Every status request the loop issues is for the configured project
    and the given job; a request whose answer [stops] the loop is the
    last call, and its answer decides the outcome. *)
Lemma waitForJob_trace (fuel : nat) (s : Service) (jobID : string)
  (tr : list event) :
  exists ext,
    snd (waitForJob fuel s jobID tr) = tr ++ ext
    /\ forall pre p' j' post,
         ext = pre ++ EvGet p' j' :: post ->
         p' = ConfigProjectID (config s) /\ j' = jobID
         /\ (stops (bk_get (service s) (count_gets (tr ++ pre)) p' j') = true ->
             post = []
             /\ fst (waitForJob fuel s jobID tr)
                = Some (wait_outcome (bk_get (service s) (count_gets (tr ++ pre)) p' j'))).
Proof.
  revert tr; induction fuel as [| fuel IH]; intros tr.
  - exists []; split; [cbn; rewrite app_nil_r; reflexivity |].
    intros pre p' j' post H; destruct pre; discriminate.
  - rewrite waitForJob_step; cbn zeta.
    set (p := ConfigProjectID (config s)).
    destruct (stops (bk_get (service s) (count_gets tr) p jobID)) eqn:Hst.
    + exists [EvGet p jobID]; split; [reflexivity |].
      intros pre p' j' post H.
      symmetry in H; apply singleton_split in H as (-> & He & ->).
      injection He as -> ->.
      rewrite app_nil_r; auto.
    + destruct (IH ((tr ++ [EvGet p jobID]) ++ [EvSleep 300])) as [ext [Hext Hpost]].
      exists (EvGet p jobID :: EvSleep 300 :: ext); split.
      { rewrite Hext, <- !app_assoc; reflexivity. }
      intros pre p' j' post H.
      destruct pre as [| x [| y pre]]; cbn in H.
      * injection H as <- <- _. rewrite app_nil_r.
        split; [reflexivity | split; [reflexivity |]].
        rewrite Hst; discriminate.
      * injection H as _ H; discriminate.
      * injection H as <- <- H.
        replace (tr ++ EvGet p jobID :: EvSleep 300 :: pre)
          with (((tr ++ [EvGet p jobID]) ++ [EvSleep 300]) ++ pre)
          by (rewrite <- !app_assoc; reflexivity).
        exact (Hpost pre p' j' post H).
Qed.

(** In the calls of a [Query], a status request whose answer ends the
    loop is the last call; an error it decides is the error of [Query]. *)
Lemma Query_trace_stops (fuel : nat) (s : Service) (query : string)
  (args : list Z) (tr pre post : list event) (p' j' : string) :
  snd (Query fuel s query args tr) = tr ++ pre ++ EvGet p' j' :: post ->
  stops (bk_get (service s) (count_gets (tr ++ pre)) p' j') = true ->
  post = []
  /\ forall e, wait_outcome (bk_get (service s) (count_gets (tr ++ pre)) p' j') = Err e ->
       fst (Query fuel s query args tr) = Some (Err e).
Proof.
  assert (Hnil : forall (l : list event) x, l = l ++ x -> x = []).
  { intros l x H. apply (f_equal (@length event)) in H.
    rewrite length_app in H. destruct x; cbn in *; [reflexivity | lia]. }
  assert (Hone : forall ev, is_get ev = false -> forall (l : list event),
            l ++ [ev] = l ++ pre ++ EvGet p' j' :: post -> False).
  { intros ev Hev l H. apply app_inv_head in H. symmetry in H.
    apply singleton_split in H as (_ & <- & _). discriminate. }
  unfold Query.
  destruct (queryArgs args) as [[start maxResults] | e]; cbn.
  2: { intros H; apply Hnil in H; destruct pre; discriminate. }
  unfold bind, requestQuery, call, ret; cbn.
  set (req := queryRequest (config s) query maxResults).
  set (ev := EvQuery (ConfigProjectID (config s)) req).
  destruct (bk_query _ _ _) as [resp | e]; cbn.
  2: { intros H; exfalso; exact (Hone ev eq_refl _ H). }
  destruct (JobComplete resp); cbn.
  1: { intros H; exfalso; exact (Hone ev eq_refl _ H). }
  set (jid := JobId (RespJobReference resp)).
  destruct (waitForJob_trace fuel s jid (tr ++ [ev])) as [ext [Hext Hpost]].
  destruct (waitForJob fuel s jid (tr ++ [ev])) as [o tr'] eqn:Hw; cbn in Hext.
  assert (Htr : snd (match o with
                     | Some (Ok _) =>
                         (Some (Ok (newQuery (service s) resp (ConfigProjectID (config s))
                                             start maxResults)), tr')
                     | Some (Err e) => (Some (Err e), tr')
                     | None => (None, tr')
                     end) = tr') by (destruct o as [[[] |] |]; reflexivity).
  rewrite Htr, Hext, <- app_assoc; clear Htr.
  intros H Hst; apply app_inv_head in H.
  destruct pre as [| x pre]; cbn in H.
  { injection H as Hx _; unfold ev in Hx; discriminate. }
  injection H as <- H.
  replace (tr ++ ev :: pre) with ((tr ++ [ev]) ++ pre) in *
    by (rewrite <- app_assoc; reflexivity).
  destruct (Hpost pre p' j' post H) as (_ & _ & Hdone).
  destruct (Hdone Hst) as [Hpost' Ho]; split; [exact Hpost' |].
  cbn in Ho; subst o.
  intros e He; rewrite He; reflexivity.
Qed.

(** C6: a status answer DONE with an error payload ends the polling (no
    call follows it) and [Query] fails with an error whose message is
    exactly the backend's message. *)
Theorem Query_job_error (fuel : nat) (s : Service) (query : string)
  (args : list Z) (tr pre post : list event) (p' j' : string)
  (job : Job) (er : ErrorProto)
  (Htr : snd (Query fuel s query args tr) = tr ++ pre ++ EvGet p' j' :: post)
  (Hans : bk_get (service s) (count_gets (tr ++ pre)) p' j' = Ok job)
  (Hdone : State (Status job) = "DONE")
  (Herr : ErrorResult (Status job) = Some er) :
  post = [] /\ fst (Query fuel s query args tr) = Some (Err (ErrString (Message er))).
Proof.
  assert (Hst : stops (bk_get (service s) (count_gets (tr ++ pre)) p' j') = true)
    by (rewrite Hans; cbn; rewrite Hdone; reflexivity).
  destruct (Query_trace_stops fuel s query args tr pre post p' j' Htr Hst) as [Hp Ho].
  split; [exact Hp |].
  apply Ho; rewrite Hans; cbn; rewrite Herr; reflexivity.
Qed.

(** C7: a failed status request ends the polling (no call follows it)
    and its error is the error of [Query], unchanged. *)
Theorem Query_poll_failure (fuel : nat) (s : Service) (query : string)
  (args : list Z) (tr pre post : list event) (p' j' : string) (e : error)
  (Htr : snd (Query fuel s query args tr) = tr ++ pre ++ EvGet p' j' :: post)
  (Hans : bk_get (service s) (count_gets (tr ++ pre)) p' j' = Err e) :
  post = [] /\ fst (Query fuel s query args tr) = Some (Err e).
Proof.
  assert (Hst : stops (bk_get (service s) (count_gets (tr ++ pre)) p' j') = true)
    by (rewrite Hans; reflexivity).
  destruct (Query_trace_stops fuel s query args tr pre post p' j' Htr Hst) as [Hp Ho].
  split; [exact Hp |].
  apply Ho; rewrite Hans; reflexivity.
Qed.

(** A job that runs for one status check, then reports DONE with an
    error, or a backend whose second status request fails. *)
Definition backend_jobfail : Backend :=
  mkBackend (fun _ _ => Ok (resp_demo false))
            (fun n _ _ => if Nat.ltb n 1 then Ok job_running
                          else Ok (mkJob (mkJobStatus "DONE" (Some (mkErrorProto "boom"))))).

Definition backend_pollfail : Backend :=
  mkBackend (fun _ _ => Ok (resp_demo false))
            (fun n _ _ => if Nat.ltb n 1 then Ok job_running
                          else Err (ErrAPI 503 "backend unavailable")).

Lemma Query_job_error_witness :
  let s := mkService cfg_demo backend_jobfail in
  let pre := [EvQuery "proj" (queryRequest cfg_demo "SELECT 1" 0);
              EvGet "proj" "job1"; EvSleep 300] in
  snd (Query 5 s "SELECT 1" [] []) = [] ++ pre ++ [EvGet "proj" "job1"]
  /\ bk_get (service s) (count_gets ([] ++ pre)) "proj" "job1"
     = Ok (mkJob (mkJobStatus "DONE" (Some (mkErrorProto "boom"))))
  /\ fst (Query 5 s "SELECT 1" [] []) = Some (Err (ErrString "boom")).
Proof.
  intros s pre; split; [reflexivity |]. split; [reflexivity |].
  exact (proj2 (Query_job_error 5 s "SELECT 1" [] [] pre [] "proj" "job1"
                  (mkJob (mkJobStatus "DONE" (Some (mkErrorProto "boom"))))
                  (mkErrorProto "boom") eq_refl eq_refl eq_refl eq_refl)).
Defined.

Lemma Query_poll_failure_witness :
  let s := mkService cfg_demo backend_pollfail in
  let pre := [EvQuery "proj" (queryRequest cfg_demo "SELECT 1" 0);
              EvGet "proj" "job1"; EvSleep 300] in
  snd (Query 5 s "SELECT 1" [] []) = [] ++ pre ++ [EvGet "proj" "job1"]
  /\ bk_get (service s) (count_gets ([] ++ pre)) "proj" "job1"
     = Err (ErrAPI 503 "backend unavailable")
  /\ fst (Query 5 s "SELECT 1" [] []) = Some (Err (ErrAPI 503 "backend unavailable")).
Proof.
  intros s pre; split; [reflexivity |]. split; [reflexivity |].
  exact (proj2 (Query_poll_failure 5 s "SELECT 1" [] [] pre [] "proj" "job1"
                  (ErrAPI 503 "backend unavailable") eq_refl eq_refl)).
Defined.

Lemma count_gets_step (tr : list event) (p j : string) :
  count_gets ((tr ++ [EvGet p j]) ++ [EvSleep 300]) = S (count_gets tr).
Proof. rewrite !count_gets_app; cbn; lia. Qed.

(** Fuel only bounds how long the loop is observed: once it has returned,
    more fuel gives the same run. *)
Lemma waitForJob_fuel_mono (fuel fuel' : nat) (s : Service) (jobID : string)
  (tr : list event) (r : result unit) :
  fst (waitForJob fuel s jobID tr) = Some r -> fuel <= fuel' ->
  waitForJob fuel' s jobID tr = waitForJob fuel s jobID tr.
Proof.
  revert fuel' tr; induction fuel as [| fuel IH]; intros fuel' tr Hr Hle.
  - discriminate.
  - destruct fuel' as [| fuel']; [lia |].
    rewrite !waitForJob_step. rewrite waitForJob_step in Hr; cbn zeta in *.
    destruct (stops _); [reflexivity |].
    apply IH; [exact Hr | lia].
Qed.

(** C8: the loop has no bound of its own: it returns iff some status
    answer, from the current one on, is an error or reports DONE; if every
    answer succeeds without DONE, it never returns. *)
Theorem waitForJob_unbounded (s : Service) (jobID : string) (tr : list event) :
  ((exists fuel r, fst (waitForJob fuel s jobID tr) = Some r)
   <-> exists n, count_gets tr <= n
                 /\ stops (bk_get (service s) n (ConfigProjectID (config s)) jobID) = true)
  /\ ((forall n, count_gets tr <= n ->
        stops (bk_get (service s) n (ConfigProjectID (config s)) jobID) = false) ->
      forall fuel, fst (waitForJob fuel s jobID tr) = None).
Proof.
  set (p := ConfigProjectID (config s)).
  assert (Hfwd : forall fuel tr r, fst (waitForJob fuel s jobID tr) = Some r ->
            exists n, count_gets tr <= n /\ stops (bk_get (service s) n p jobID) = true).
  { induction fuel as [| fuel IH]; intros tr' r Hr; [discriminate |].
    rewrite waitForJob_step in Hr; cbn zeta in Hr; fold p in Hr.
    destruct (stops (bk_get (service s) (count_gets tr') p jobID)) eqn:Hst.
    - exists (count_gets tr'); split; [lia | exact Hst].
    - destruct (IH _ _ Hr) as [n [Hn Hs]].
      rewrite count_gets_step in Hn.
      exists n; split; [lia | exact Hs]. }
  assert (Hbwd : forall d tr n, count_gets tr + d = n ->
            stops (bk_get (service s) n p jobID) = true ->
            exists fuel r, fst (waitForJob fuel s jobID tr) = Some r).
  { induction d as [| d IH]; intros tr' n Hn Hs.
    - exists 1. rewrite waitForJob_step; cbn zeta; fold p.
      replace (count_gets tr') with n by lia. rewrite Hs.
      eexists; reflexivity.
    - destruct (stops (bk_get (service s) (count_gets tr') p jobID)) eqn:Hst.
      + exists 1. rewrite waitForJob_step; cbn zeta; fold p; rewrite Hst.
        eexists; reflexivity.
      + destruct (IH ((tr' ++ [EvGet p jobID]) ++ [EvSleep 300]) n) as [f [r Hr]];
          [rewrite count_gets_step; lia | exact Hs |].
        exists (S f), r. rewrite waitForJob_step; cbn zeta; fold p; rewrite Hst.
        exact Hr. }
  split; [split |].
  - intros [fuel [r Hr]]; exact (Hfwd fuel tr r Hr).
  - intros [n [Hn Hs]]; exact (Hbwd (n - count_gets tr) tr n ltac:(lia) Hs).
  - intros Hall fuel.
    destruct (fst (waitForJob fuel s jobID tr)) as [r |] eqn:Hr; [| reflexivity].
    destruct (Hfwd fuel tr r Hr) as [n [Hn Hs]].
    rewrite (Hall n Hn) in Hs; discriminate.
Qed.

Lemma waitForJob_unbounded_witness :
  (exists fuel r, fst (waitForJob fuel (service_demo false 1000) "job1" []) = Some r)
  /\ fst (waitForJob 1000 (service_demo false 1000) "job1" []) = None.
Proof.
  split.
  - apply (proj2 (proj1 (waitForJob_unbounded (service_demo false 1000) "job1" []))).
    exists 1000; split; [cbn; lia | reflexivity].
  - vm_compute; reflexivity.
Defined.

(** ** Further properties of service.go *)

(** The calls of [n] status checks that did not end the loop: each check
    is followed by a 300 ms sleep. *)
Definition poll_pairs (p jobID : string) (n : nat) : list event :=
  concat (repeat [EvGet p jobID; EvSleep 300] n).

Lemma poll_pairs_S (p jobID : string) (n : nat) :
  poll_pairs p jobID (S n) = EvGet p jobID :: EvSleep 300 :: poll_pairs p jobID n.
Proof. reflexivity. Qed.

Lemma poll_pairs_Forall (p jobID : string) (n : nat) :
  Forall (fun ev => ev = EvGet p jobID \/ ev = EvSleep 300) (poll_pairs p jobID n).
Proof.
  induction n as [| n IH]; [constructor |].
  rewrite poll_pairs_S; constructor; [left; reflexivity |].
  constructor; [right; reflexivity | exact IH].
Qed.

(** [New] succeeds exactly when the client factory succeeds and both IDs
    are non-empty; the Service then holds the config and the client. *)
Theorem New_succeeds_iff (co : ClientOptions) (cfg : Config) (tr : list event)
  (sv : Service) :
  fst (New co cfg tr) = Some (Ok sv)
  <-> co_Service co = Ok (service sv) /\ config sv = cfg
      /\ ConfigDatasetID cfg <> "" /\ ConfigProjectID cfg <> "".
Proof.
  unfold New, bind, call, throw, ret; cbn.
  destruct (co_Service co) as [b | e]; cbn.
  - destruct (String.eqb (ConfigDatasetID cfg) "") eqn:Hd;
      [| destruct (String.eqb (ConfigProjectID cfg) "") eqn:Hp]; cbn.
    + apply String.eqb_eq in Hd.
      split; [discriminate | intros (_ & _ & H & _); contradiction].
    + apply String.eqb_eq in Hp.
      split; [discriminate | intros (_ & _ & _ & H); contradiction].
    + apply String.eqb_neq in Hd, Hp.
      split.
      * intros H; injection H as <-; cbn; auto.
      * intros (Hb & Hc & _); injection Hb as ->.
        destruct sv; cbn in *; subst; reflexivity.
  - split; [discriminate | intros (H & _); discriminate].
Qed.

(** [queryArgs] fails exactly when it is given more than two arguments. *)
Theorem queryArgs_fails_iff (args : list Z) :
  (exists e, queryArgs args = Err e) <-> 2 < length args.
Proof.
  destruct args as [| a0 [| a1 [| a2 rest]]]; cbn; split;
    try (intros [e H]; discriminate); try lia; eauto.
Qed.

(** A failed submission is returned unchanged by [Query]; it is the last
    call, so no status check follows. *)
Theorem Query_submit_error (fuel : nat) (s : Service) (query : string)
  (args : list Z) (tr : list event) (start maxResults : Z) (e : error)
  (Hargs : queryArgs args = Ok (start, maxResults))
  (Hsubmit : bk_query (service s) (ConfigProjectID (config s))
               (queryRequest (config s) query maxResults) = Err e) :
  Query fuel s query args tr =
  (Some (Err e),
   tr ++ [EvQuery (ConfigProjectID (config s)) (queryRequest (config s) query maxResults)]).
Proof.
  unfold Query; rewrite Hargs.
  unfold bind, requestQuery, call; cbn; rewrite Hsubmit; reflexivity.
Qed.

Definition backend_submitfail : Backend :=
  mkBackend (fun _ _ => Err (ErrAPI 400 "invalid query"))
            (fun _ _ _ => Ok job_done).

Lemma Query_submit_error_witness :
  Query 3 (mkService cfg_demo backend_submitfail) "SELEC 1" [] []
  = (Some (Err (ErrAPI 400 "invalid query")),
     [EvQuery "proj" (queryRequest cfg_demo "SELEC 1" 0)]).
Proof.
  exact (Query_submit_error 3 (mkService cfg_demo backend_submitfail) "SELEC 1" [] []
           0 0 (ErrAPI 400 "invalid query") eq_refl eq_refl).
Defined.

(** The calls of the polling loop are always some checks each followed by
    a 300 ms sleep, then, if the loop has returned, one last check with no
    sleep after it. *)
Theorem waitForJob_calls (fuel : nat) (s : Service) (jobID : string) (tr : list event) :
  exists n,
    snd (waitForJob fuel s jobID tr)
    = tr ++ poll_pairs (ConfigProjectID (config s)) jobID n
         ++ match fst (waitForJob fuel s jobID tr) with
            | Some _ => [EvGet (ConfigProjectID (config s)) jobID]
            | None => []
            end.
Proof.
  revert tr; induction fuel as [| fuel IH]; intros tr.
  - exists 0; cbn; rewrite app_nil_r; reflexivity.
  - rewrite waitForJob_step; cbn zeta.
    set (p := ConfigProjectID (config s)).
    destruct (stops (bk_get (service s) (count_gets tr) p jobID)).
    + exists 0; reflexivity.
    + destruct (IH ((tr ++ [EvGet p jobID]) ++ [EvSleep 300])) as [n Hn].
      exists (S n); rewrite Hn, poll_pairs_S, <- !app_assoc; reflexivity.
Qed.

(** If the first [n] status answers are successes whose state is not
    DONE (an error payload on them is ignored) and the next answer is an
    error or DONE, the loop ends after exactly [n + 1] checks, with a
    300 ms sleep between consecutive checks, and its outcome is given by
    that last answer. *)
Theorem waitForJob_ends_after (n fuel : nat) (s : Service) (jobID : string)
  (tr : list event)
  (Hrun : forall i, i < n ->
     stops (bk_get (service s) (count_gets tr + i) (ConfigProjectID (config s)) jobID)
     = false)
  (Hstop : stops (bk_get (service s) (count_gets tr + n) (ConfigProjectID (config s)) jobID)
           = true)
  (Hfuel : n < fuel) :
  waitForJob fuel s jobID tr =
  (Some (wait_outcome (bk_get (service s) (count_gets tr + n)
                              (ConfigProjectID (config s)) jobID)),
   tr ++ poll_pairs (ConfigProjectID (config s)) jobID n
      ++ [EvGet (ConfigProjectID (config s)) jobID]).
Proof.
  revert fuel tr Hrun Hstop Hfuel; induction n as [| n IH];
    intros fuel tr Hrun Hstop Hfuel;
    (destruct fuel as [| fuel]; [lia |]);
    rewrite waitForJob_step; cbn zeta.
  - rewrite Nat.add_0_r in Hstop |- *; rewrite Hstop; reflexivity.
  - pose proof (Hrun 0 ltac:(lia)) as H0; rewrite Nat.add_0_r in H0; rewrite H0.
    rewrite IH; [| intros i Hi | | lia]; rewrite ?count_gets_step.
    + replace (S (count_gets tr) + n) with (count_gets tr + S n) by lia.
      rewrite poll_pairs_S, <- !app_assoc; reflexivity.
    + replace (S (count_gets tr) + i) with (count_gets tr + S i) by lia.
      apply Hrun; lia.
    + replace (S (count_gets tr) + n) with (count_gets tr + S n) by lia.
      exact Hstop.
Qed.

(** A backend whose first two status answers are RUNNING with an error
    payload, then DONE without error. *)
Definition backend_noisy : Backend :=
  mkBackend (fun _ _ => Ok (resp_demo false))
            (fun n _ _ => if Nat.ltb n 2
                          then Ok (mkJob (mkJobStatus "RUNNING" (Some (mkErrorProto "transient"))))
                          else Ok job_done).

Lemma waitForJob_ends_after_witness :
  waitForJob 3 (mkService cfg_demo backend_noisy) "job1" []
  = (Some (Ok tt), [EvGet "proj" "job1"; EvSleep 300; EvGet "proj" "job1"; EvSleep 300;
                    EvGet "proj" "job1"]).
Proof.
  exact (waitForJob_ends_after 2 3 (mkService cfg_demo backend_noisy) "job1" []
           ltac:(intros [| [| i]] Hi; [reflexivity | reflexivity | lia])
           eq_refl ltac:(lia)).
Defined.

(** After an accepted submission, [Query] issues only status checks of the
    submitted job on the configured project and 300 ms sleeps: one
    submission, no second one, and no call to the client factory. *)
Theorem Query_calls (fuel : nat) (s : Service) (query : string) (args : list Z)
  (tr : list event) (start maxResults : Z) (resp : QueryResponse)
  (Hargs : queryArgs args = Ok (start, maxResults))
  (Hsubmit : bk_query (service s) (ConfigProjectID (config s))
               (queryRequest (config s) query maxResults) = Ok resp) :
  exists rest,
    snd (Query fuel s query args tr)
    = tr ++ EvQuery (ConfigProjectID (config s)) (queryRequest (config s) query maxResults)
         :: rest
    /\ Forall (fun ev => ev = EvGet (ConfigProjectID (config s)) (JobId (RespJobReference resp))
                         \/ ev = EvSleep 300) rest.
Proof.
  unfold Query; rewrite Hargs.
  unfold bind, requestQuery, call, ret; cbn; rewrite Hsubmit.
  destruct (JobComplete resp); cbn; [exists []; split; [reflexivity | constructor] |].
  set (p := ConfigProjectID (config s)).
  set (req := queryRequest (config s) query maxResults).
  set (jid := JobId (RespJobReference resp)).
  destruct (waitForJob_calls fuel s jid (tr ++ [EvQuery p req])) as [n Hn].
  destruct (waitForJob fuel s jid (tr ++ [EvQuery p req])) as [o tr'] eqn:Hw.
  cbn in Hn; subst tr'.
  exists (poll_pairs p jid n ++ match o with Some _ => [EvGet p jid] | None => [] end).
  split.
  - destruct o as [[[] |] |]; cbn; rewrite <- !app_assoc; reflexivity.
  - apply Forall_app; split; [apply poll_pairs_Forall |].
    destruct o; repeat constructor; left; reflexivity.
Qed.

Lemma Query_calls_witness :
  exists rest,
    snd (Query 5 (service_demo false 1) "SELECT 1" [] [])
    = [] ++ EvQuery "proj" (queryRequest cfg_demo "SELECT 1" 0) :: rest
    /\ Forall (fun ev => ev = EvGet "proj" "job1" \/ ev = EvSleep 300) rest.
Proof.
  exact (Query_calls 5 (service_demo false 1) "SELECT 1" [] [] 0 0 (resp_demo false)
           eq_refl eq_refl).
Defined.

(** A cursor returned by [Query] is built from the accepted submission
    response, the client, the configured project and the parsed
    arguments. *)
Theorem Query_success_cursor (fuel : nat) (s : Service) (query : string)
  (args : list Z) (tr : list event) (c : Cursor)
  (Hok : fst (Query fuel s query args tr) = Some (Ok c)) :
  exists start maxResults resp,
    queryArgs args = Ok (start, maxResults)
    /\ bk_query (service s) (ConfigProjectID (config s))
         (queryRequest (config s) query maxResults) = Ok resp
    /\ c = newQuery (service s) resp (ConfigProjectID (config s)) start maxResults.
Proof.
  revert Hok; unfold Query.
  destruct (queryArgs args) as [[start maxResults] | e]; cbn; [| discriminate].
  unfold bind, requestQuery, call, ret; cbn.
  destruct (bk_query _ _ _) as [resp | e] eqn:Hq; cbn; [| discriminate].
  intros Hok; exists start, maxResults, resp; split; [reflexivity | split; [exact Hq |]].
  destruct (JobComplete resp); cbn in Hok.
  - injection Hok as <-; reflexivity.
  - destruct (waitForJob _ _ _ _) as [[[] |] tr']; cbn in Hok; try discriminate.
    injection Hok as <-; reflexivity.
Qed.

Lemma Query_success_cursor_witness :
  exists start maxResults resp,
    queryArgs [3%Z] = Ok (start, maxResults)
    /\ bk_query (backend_demo false 1) "proj" (queryRequest cfg_demo "SELECT 1" maxResults)
       = Ok resp
    /\ newQuery (backend_demo false 1) (resp_demo false) "proj" 3 0
       = newQuery (backend_demo false 1) resp "proj" start maxResults.
Proof.
  exact (Query_success_cursor 5 (service_demo false 1) "SELECT 1" [3%Z] []
           (newQuery (backend_demo false 1) (resp_demo false) "proj" 3 0) eq_refl).
Defined.

Lemma waitForJob_returns_iff (s : Service) (jobID : string) (tr : list event) :
  (exists fuel r, fst (waitForJob fuel s jobID tr) = Some r)
  <-> exists n, count_gets tr <= n
                /\ stops (bk_get (service s) n (ConfigProjectID (config s)) jobID) = true.
Proof.
  set (p := ConfigProjectID (config s)); split.
  - intros [fuel [r Hr]]; revert tr r Hr.
    induction fuel as [| fuel IH]; intros tr' r Hr; [discriminate |].
    rewrite waitForJob_step in Hr; cbn zeta in Hr; fold p in Hr.
    destruct (stops (bk_get (service s) (count_gets tr') p jobID)) eqn:Hst.
    + exists (count_gets tr'); split; [lia | exact Hst].
    + destruct (IH _ _ Hr) as [n [Hn Hs]]; rewrite count_gets_step in Hn.
      exists n; split; [lia | exact Hs].
  - intros [n [Hn Hs]].
    assert (Hd : forall d tr', count_gets tr' + d = n ->
              exists fuel r, fst (waitForJob fuel s jobID tr') = Some r).
    { induction d as [| d IH]; intros tr' Htr'.
      - exists 1. rewrite waitForJob_step; cbn zeta; fold p.
        replace (count_gets tr') with n by lia. rewrite Hs; eexists; reflexivity.
      - destruct (stops (bk_get (service s) (count_gets tr') p jobID)) eqn:Hst.
        + exists 1. rewrite waitForJob_step; cbn zeta; fold p; rewrite Hst.
          eexists; reflexivity.
        + destruct (IH ((tr' ++ [EvGet p jobID]) ++ [EvSleep 300])) as [f [r Hr]];
            [rewrite count_gets_step; lia |].
          exists (S f), r. rewrite waitForJob_step; cbn zeta; fold p; rewrite Hst.
          exact Hr. }
    exact (Hd (n - count_gets tr) tr ltac:(lia)).
Qed.

(** A [Query] whose submission is accepted without the job being complete
    returns (for some running time) iff some status answer, from the first
    check on, is an error or reports DONE; otherwise it blocks forever. *)
Theorem Query_returns_iff (s : Service) (query : string) (args : list Z)
  (tr : list event) (start maxResults : Z) (resp : QueryResponse)
  (Hargs : queryArgs args = Ok (start, maxResults))
  (Hsubmit : bk_query (service s) (ConfigProjectID (config s))
               (queryRequest (config s) query maxResults) = Ok resp)
  (Hincomplete : JobComplete resp = false) :
  (exists fuel r, fst (Query fuel s query args tr) = Some r)
  <-> exists n, count_gets tr <= n
                /\ stops (bk_get (service s) n (ConfigProjectID (config s))
                                 (JobId (RespJobReference resp))) = true.
Proof.
  set (ev := EvQuery (ConfigProjectID (config s)) (queryRequest (config s) query maxResults)).
  assert (Hc : count_gets (tr ++ [ev]) = count_gets tr)
    by (rewrite count_gets_app; cbn; lia).
  rewrite <- Hc, <- waitForJob_returns_iff.
  assert (Hq : forall fuel,
            fst (Query fuel s query args tr)
            = option_map (result_map (fun _ => newQuery (service s) resp
                                         (ConfigProjectID (config s)) start maxResults))
                         (fst (waitForJob fuel s (JobId (RespJobReference resp)) (tr ++ [ev])))).
  { intros fuel; unfold Query; rewrite Hargs.
    unfold bind, requestQuery, call, ret; cbn; rewrite Hsubmit, Hincomplete; cbn.
    fold ev. destruct (waitForJob _ _ _ _) as [[[[] | e] |] tr']; reflexivity. }
  split; intros [fuel [r Hr]]; exists fuel; rewrite Hq in *.
  - destruct (fst (waitForJob _ _ _ _)) as [r' |]; [eexists; reflexivity | discriminate].
  - rewrite Hr; eexists; reflexivity.
Qed.

Lemma Query_returns_iff_witness :
  exists fuel r, fst (Query fuel (service_demo false 4) "SELECT 1" [] []) = Some r.
Proof.
  apply (proj2 (Query_returns_iff (service_demo false 4) "SELECT 1" [] [] 0 0
                  (resp_demo false) eq_refl eq_refl eq_refl)).
  exists 4; split; [cbn; lia | reflexivity].
Defined.
